(** * make-formatter: the line classifier and the line renderers

    A shallow embedding of [make-formatter.py].  The script reads the output
    of [make] line by line, decides for each line which handler formats it
    ([get_processing_handler]) and prints what the handler returns when its
    second component is [True] ([process]).  The check of the command line
    ([check_cmd]) and the loop over the lines read ([main_loop]) are
    embedded as well; running the command and the signal handlers are not.

    Lines are Python [str] values.  They are modelled as [string], so a
    character is a code point below 256; the character classes
    ([str.isspace], [str.isdigit]) are Python's on that range.  A Python
    exception is an explicit result ([Raise]); the functions of the script
    that can raise return a [result]. *)

From Stdlib Require Import String Ascii List Bool Arith Lia.
Import ListNotations.
Open Scope string_scope.
Open Scope list_scope.
Open Scope bool_scope.
Open Scope nat_scope.

(** ** Python values, built-ins and [os.path] (posixpath) *)

Module Py.

Inductive exn : Type :=
| IndexError
| ValueError.

Inductive result (A : Type) : Type :=
| Ok (a : A)
| Raise (e : exn).

Arguments Ok {A} a.
Arguments Raise {A} e.

Definition bind {A B : Type} (m : result A) (k : A -> result B) : result B :=
  match m with
  | Ok a => k a
  | Raise e => Raise e
  end.

Definition fmap {A B : Type} (f : A -> B) (m : result A) : result B :=
  bind m (fun a => Ok (f a)).

(** [c.isspace()] for a code point below 256: TAB..CR, FS..US, SPACE,
    NEL (U+0085) and NBSP (U+00A0). *)
Definition isspace (c : ascii) : bool :=
  let n := nat_of_ascii c in
  ((9 <=? n) && (n <=? 13)) || ((28 <=? n) && (n <=? 32))
  || (n =? 133) || (n =? 160).

(** A digit in the sense of [str.isdigit] below 256: 0..9 and the
    superscripts U+00B2, U+00B3, U+00B9. *)
Definition isdigit_char (c : ascii) : bool :=
  let n := nat_of_ascii c in
  ((48 <=? n) && (n <=? 57)) || (n =? 178) || (n =? 179) || (n =? 185).

Fixpoint all_chars (p : ascii -> bool) (s : string) : bool :=
  match s with
  | EmptyString => true
  | String c s' => p c && all_chars p s'
  end.

(** [s.isdigit()]: at least one character, all of them digits. *)
Definition isdigit (s : string) : bool :=
  match s with
  | EmptyString => false
  | String _ _ => all_chars isdigit_char s
  end.

(** [s[i]] for [i >= 0]. *)
Definition str_get (s : string) (i : nat) : result ascii :=
  match String.get i s with
  | Some c => Ok c
  | None => Raise IndexError
  end.

(** [l[i]] for [i >= 0]. *)
Definition list_get {A : Type} (l : list A) (i : nat) : result A :=
  match nth_error l i with
  | Some x => Ok x
  | None => Raise IndexError
  end.

(** [l.index(x)]: the position of the first element equal to [x]. *)
Fixpoint list_index (l : list string) (x : string) : result nat :=
  match l with
  | [] => Raise ValueError
  | y :: l' => if String.eqb y x then Ok 0 else fmap S (list_index l' x)
  end.

Definition startswith (s p : string) : bool := String.prefix p s.

Definition endswith (s p : string) : bool :=
  (String.length p <=? String.length s)
  && String.eqb (substring (String.length s - String.length p) (String.length p) s) p.

(** [s.count(sub)]: occurrences of [sub] in [s] that do not overlap, found
    from the left.  [skip] characters of the last occurrence are still to be
    passed over. *)
Fixpoint count_from (sub : string) (skip : nat) (s : string) : nat :=
  match s with
  | EmptyString =>
      match sub, skip with
      | EmptyString, 0 => 1
      | _, _ => 0
      end
  | String _ s' =>
      match skip with
      | S k => count_from sub k s'
      | 0 =>
          if String.prefix sub s
          then S (count_from sub (String.length sub - 1) s')
          else count_from sub 0 s'
      end
  end.

Definition count (s sub : string) : nat := count_from sub 0 s.

(** [s.replace(old, new)]: every occurrence counted by [count] is replaced. *)
Fixpoint replace_from (old new : string) (skip : nat) (s : string) : string :=
  match s with
  | EmptyString =>
      match old, skip with
      | EmptyString, 0 => new
      | _, _ => EmptyString
      end
  | String c s' =>
      match skip with
      | S k => replace_from old new k s'
      | 0 =>
          if String.prefix old s
          then
            match old with
            | EmptyString => new ++ String c (replace_from old new 0 s')
            | String _ _ => new ++ replace_from old new (String.length old - 1) s'
            end
          else String c (replace_from old new 0 s')
      end
  end.

Definition replace (s old new : string) : string := replace_from old new 0 s.

(** [s.split()]: the maximal runs of characters that are not whitespace. *)
Fixpoint split (s : string) : list string :=
  match s with
  | EmptyString => []
  | String c s' =>
      if isspace c then split s'
      else
        match s' with
        | EmptyString => [String c EmptyString]
        | String c' _ =>
            if isspace c' then String c EmptyString :: split s'
            else
              match split s' with
              | w :: ws => String c w :: ws
              | [] => [String c EmptyString]
              end
        end
  end.

(** [s.split(sep)] for a separator of one character: empty fields are kept. *)
Fixpoint split_on (sep : ascii) (s : string) : list string :=
  match s with
  | EmptyString => [EmptyString]
  | String c s' =>
      if Ascii.eqb c sep then EmptyString :: split_on sep s'
      else
        match split_on sep s' with
        | w :: ws => String c w :: ws
        | [] => [String c EmptyString]
        end
  end.

Fixpoint lstrip (s : string) : string :=
  match s with
  | EmptyString => EmptyString
  | String c s' => if isspace c then lstrip s' else s
  end.

Fixpoint rstrip (s : string) : string :=
  match s with
  | EmptyString => EmptyString
  | String c s' =>
      match rstrip s' with
      | EmptyString => if isspace c then EmptyString else String c EmptyString
      | String _ _ as r => String c r
      end
  end.

(** [s.strip()] *)
Definition strip (s : string) : string := lstrip (rstrip s).

(** [sep.join(l)] *)
Definition join (sep : string) (l : list string) : string := String.concat sep l.

(** [posixpath.basename(p)]: what follows the last slash. *)
Definition basename (p : string) : string :=
  last (split_on "/" p) EmptyString.

(** One turn of the loop of [posixpath.normpath]; the components kept so far
    are held last first. *)
Definition normpath_step (initial_slashes : nat) (new_comps : list string)
    (comp : string) : list string :=
  if String.eqb comp "" || String.eqb comp "." then new_comps
  else if negb (String.eqb comp "..")
          || ((initial_slashes =? 0) && match new_comps with [] => true | _ => false end)
          || match new_comps with top :: _ => String.eqb top ".." | [] => false end
       then comp :: new_comps
       else match new_comps with
            | _ :: rest => rest
            | [] => []
            end.

Fixpoint repeat_string (s : string) (n : nat) : string :=
  match n with
  | 0 => EmptyString
  | S n' => s ++ repeat_string s n'
  end.

(** [posixpath.normpath(path)] *)
Definition normpath (path : string) : string :=
  if String.eqb path "" then "."
  else
    let initial_slashes :=
      if startswith path "/"
      then if startswith path "//" && negb (startswith path "///") then 2 else 1
      else 0 in
    let comps := rev (fold_left (normpath_step initial_slashes) (split_on "/" path) []) in
    let path' := (repeat_string "/" initial_slashes ++ join "/" comps)%string in
    if String.eqb path' "" then "." else path'.

End Py.

Import Py.

Notation "x <- m ;; k" := (bind m (fun x => k))
  (at level 61, m at next level, right associativity).

(** ** The script *)

(** switch: if False, all output lines are passed through as is. *)
Definition enable : bool := true.

(** key symbols *)
Definition K_SHAREDLIB : string := ".so".
Definition K_OBJ : string := ".o".
Definition K_CPP : string := ".cc".
Definition K_ASM : string := ".s".
Definition K_COMPILE : string := " -c".
Definition K_OUTPUT : string := " -o".
Definition K_FPIC : string := " -fPIC".
Definition K_PREPAR : string := "Preparation: ".
Definition K_STARS : string := "***".
Definition K_MAKEDONE : string := "make: DONE ".

(** prefixes; [ESC] is the character 0x1b *)
Definition ESC : string := String "027"%char EmptyString.
Definition PREFIX_COMPILE : string := (ESC ++ "[38;5;220m[Compile]" ++ ESC ++ "[0m")%string.
Definition PREFIX_LINK : string := (ESC ++ "[38;5;45m[Link]" ++ ESC ++ "[0m")%string.
Definition PREFIX_COMPLINK : string := (ESC ++ "[38;5;41m[Compile + Link]" ++ ESC ++ "[0m")%string.
Definition PREFIX_SHAREDLIB : string := (ESC ++ "[38;5;225m[Library]" ++ ESC ++ "[0m")%string.

(** ["%s => %s" % (prefix, target)] *)
Definition arrow (prefix target : string) : string :=
  (prefix ++ " => " ++ target)%string.

(** What a handler returns: the processed line, and whether to print it. *)
Definition handled : Type := (string * bool)%type.
Definition handler : Type := string -> result handled.

Definition compiled_names (suffix : string) (line_split : list string) : list string :=
  map (fun item => basename (replace item suffix K_OBJ))
      (filter (fun item => endswith item suffix) line_split).

Definition handle_compile_only : handler := fun line =>
  let line_split := split line in
  if negb (count line (strip K_OUTPUT) =? 0) then
    i <- list_index line_split (strip K_OUTPUT) ;;
    let obj_file_index := i + 1 in
    obj <- list_get line_split obj_file_index ;;
    Ok (arrow PREFIX_COMPILE obj, true)
  else
    let source_files := compiled_names K_CPP line_split in
    let source_files := source_files ++ compiled_names K_ASM line_split in
    Ok (arrow PREFIX_COMPILE (join " " source_files), true).

Definition handle_convert_obj_to_so : handler := fun line =>
  let line_split := split line in
  i <- list_index line_split (strip K_OUTPUT) ;;
  let so_file_index := i + 1 in
  so <- list_get line_split so_file_index ;;
  Ok (arrow PREFIX_SHAREDLIB (normpath so), true).

Definition handle_compile_and_link : handler := fun line =>
  let line_split := split line in
  i <- list_index line_split (strip K_OUTPUT) ;;
  let exe_file_index := i + 1 in
  if List.length line_split <=? exe_file_index then
    Ok (arrow PREFIX_COMPLINK "a.out", true)
  else
    exe <- list_get line_split exe_file_index ;;
    Ok (arrow PREFIX_COMPLINK (normpath exe), true).

Definition handle_link_only : handler := fun line =>
  let line_split := split line in
  i <- list_index line_split (strip K_OUTPUT) ;;
  let exe_file_index := i + 1 in
  if List.length line_split <=? exe_file_index then
    Ok (arrow PREFIX_LINK "a.out", true)
  else
    exe <- list_get line_split exe_file_index ;;
    Ok (arrow PREFIX_LINK (normpath exe), true).

Definition handle_preparation_msg : handler := fun _ => Ok ("", false).

Definition handle_separator : handler := fun _ => Ok ("", false).

Definition handler_makedone_message : handler := fun _ => Ok ("", false).

Definition handle_passthrough : handler := fun line => Ok (line, true).

(** Is the line some tool's warning or error message?  The second disjunct
    of the first test on [first] looks at [line], as the script does. *)
Definition is_error_msg (line : string) : result bool :=
  c0 <- str_get line 0 ;;
  if isspace c0 then Ok true
  else if startswith line K_STARS || startswith line K_MAKEDONE
          || negb (count line K_PREPAR =? 0) then Ok false
  else
    first <- list_get (split line) 0 ;;
    if endswith first "g++" || endswith line "gcc" then Ok false
    else if String.eqb first "ld" || String.eqb first "ar" || String.eqb first "gold"
    then Ok false
    else if count first "-" =? 1 then
      e1 <- list_get (split_on "-" first) 0 ;;
      e2 <- list_get (split_on "-" first) 1 ;;
      if (endswith e1 "g++" || endswith e1 "gcc") && isdigit e2 then Ok false
      else Ok true
    else Ok true.

(** Discern what the line is, and return the function that handles it. *)
Definition get_processing_handler (line : string) : result handler :=
  if String.length line =? 0 then Ok handle_passthrough
  else
    err <- is_error_msg line ;;
    if err then Ok handle_passthrough
    else if negb (count line K_COMPILE =? 0) then Ok handle_compile_only
    else if negb (count line K_FPIC =? 0) then Ok handle_convert_obj_to_so
    else if negb (count line K_OUTPUT =? 0) then
      if negb (count line K_CPP =? 0) || negb (count line K_ASM =? 0)
      then Ok handle_compile_and_link
      else Ok handle_link_only
    else if negb (count line K_PREPAR =? 0) then Ok handle_preparation_msg
    else if negb (count line K_STARS =? 0) then Ok handle_separator
    else if negb (count line K_MAKEDONE =? 0) then Ok handler_makedone_message
    else Ok handle_passthrough.

(** [process], with the global switch as an argument. *)
Definition process_with (enabled : bool) (line : string) : result handled :=
  if negb enabled then Ok (line, true)
  else
    h <- get_processing_handler line ;;
    h line.

Definition process (line : string) : result handled := process_with enable line.




(** ** The classifier and the renderer, as the specification names them *)

(** The categories of a line.  [Diagnostic] is the first [return] of
    [get_processing_handler] (taken when [is_error_msg] holds) and
    [Passthrough] its last one; both lead to [handle_passthrough]. *)
Inductive Category : Type :=
| Diagnostic
| CompileOnly
| SharedLibraryLink
| CompileAndLink
| LinkOnly
| Preparation
| Separator
| BuildDone
| Passthrough.

(** The chain of tests of [get_processing_handler] on a line that is not
    empty, keeping which [return] is reached. *)
Definition classify (line : string) : result Category :=
  err <- is_error_msg line ;;
  if err then Ok Diagnostic
  else if negb (count line K_COMPILE =? 0) then Ok CompileOnly
  else if negb (count line K_FPIC =? 0) then Ok SharedLibraryLink
  else if negb (count line K_OUTPUT =? 0) then
    if negb (count line K_CPP =? 0) || negb (count line K_ASM =? 0)
    then Ok CompileAndLink
    else Ok LinkOnly
  else if negb (count line K_PREPAR =? 0) then Ok Preparation
  else if negb (count line K_STARS =? 0) then Ok Separator
  else if negb (count line K_MAKEDONE =? 0) then Ok BuildDone
  else Ok Passthrough.

(** The handler that [get_processing_handler] returns at each [return]. *)
Definition renderer (c : Category) : handler :=
  match c with
  | Diagnostic => handle_passthrough
  | CompileOnly => handle_compile_only
  | SharedLibraryLink => handle_convert_obj_to_so
  | CompileAndLink => handle_compile_and_link
  | LinkOnly => handle_link_only
  | Preparation => handle_preparation_msg
  | Separator => handle_separator
  | BuildDone => handler_makedone_message
  | Passthrough => handle_passthrough
  end.

Definition render (c : Category) (line : string) : result handled :=
  renderer c line.

(** [sub] occurs in [s]. *)
Definition contains (s sub : string) : Prop :=
  exists a b : string, s = (a ++ sub ++ b)%string.

(** The first character of the line is whitespace. *)
Definition starts_with_space (line : string) : bool :=
  match line with
  | EmptyString => false
  | String c _ => isspace c
  end.

(** None of the six markers that [get_processing_handler] looks for occurs
    in the line. *)
Definition marker_free (line : string) : Prop :=
  ~ contains line K_COMPILE /\ ~ contains line K_FPIC /\ ~ contains line K_OUTPUT
  /\ ~ contains line K_PREPAR /\ ~ contains line K_STARS /\ ~ contains line K_MAKEDONE.

(** The token list has a token ["-o"], and [target] follows the first one. *)
Definition output_target (toks : list string) (target : string) : Prop :=
  exists pre post : list string, toks = pre ++ "-o" :: target :: post /\ ~ In "-o" pre.

(** The name the specification gives to a compiled source file: the source
    suffix at the end of the token becomes [K_OBJ], and the directories are
    dropped. *)
Definition object_name (suffix item : string) : string :=
  basename (substring 0 (String.length item - String.length suffix) item ++ K_OBJ).

(** [sub] occurs in [s] at its end only. *)
Definition only_at_end (s sub : string) : Prop :=
  forall a b : string, s = (a ++ sub ++ b)%string -> b = "".

(** A versioned compiler name for the specification: a name without hyphen
    that ends with ["g++"] or ["gcc"], one hyphen, and digits. *)
Definition versioned (first : string) : Prop :=
  exists e1 e2 : string,
    first = (e1 ++ "-" ++ e2)%string
    /\ count e1 "-" = 0
    /\ (endswith e1 "g++" = true \/ endswith e1 "gcc" = true)
    /\ isdigit e2 = true.

(** The token is a compiler or a linker for the specification: it ends with
    ["g++"] or ["gcc"], or is one of ["ld"], ["ar"], ["gold"], or is a
    versioned compiler name. *)
Definition recognizable (first : string) : Prop :=
  endswith first "g++" = true \/ endswith first "gcc" = true
  \/ first = "ld" \/ first = "ar" \/ first = "gold"
  \/ versioned first.

(** ** Facts on the Python built-ins *)

Section PyFacts.

Lemma bind_Ok {A B : Type} (m : result A) (k : A -> result B) (b : B) :
  bind m k = Ok b -> exists a, m = Ok a /\ k a = Ok b.
Proof.
  destruct m as [a|e]; simpl; intros H.
  - exists a. split; [reflexivity | exact H].
  - discriminate H.
Qed.

Lemma prefix_app (p s : string) :
  String.prefix p s = true <-> exists b, s = (p ++ b)%string.
Proof.
  revert s. induction p as [|a p IH]; intros s.
  - destruct s; simpl; split; intros _; try reflexivity; eexists; reflexivity.
  - destruct s as [|c s]; simpl.
    + split; [discriminate | intros [b Hb]; discriminate Hb].
    + destruct (ascii_dec a c) as [->|Hne].
      * rewrite IH. split; intros [b Hb]; exists b.
        -- now rewrite Hb.
        -- now injection Hb.
      * split; [discriminate | intros [b Hb]; injection Hb; intros _ E; now elim Hne].
Qed.

Lemma count_from_contains (sub : string) :
  forall (s : string) (skip : nat), count_from sub skip s <> 0 -> contains s sub.
Proof.
  induction s as [|c s IH]; intros skip H.
  - simpl in H. destruct sub; [|congruence]. exists "", "". reflexivity.
  - cbn [count_from] in H. destruct skip as [|k].
    + destruct (String.prefix sub (String c s)) eqn:P.
      * apply prefix_app in P. destruct P as [b Hb].
        exists "", b. exact Hb.
      * destruct (IH 0 H) as (a & b & E). exists (String c a), b. now rewrite E.
    + destruct (IH k H) as (a & b & E). exists (String c a), b. now rewrite E.
Qed.

Lemma contains_count (s sub : string) : contains s sub -> count s sub <> 0.
Proof.
  intros (a & b & E). subst s. unfold count.
  induction a as [|c a IH].
  - simpl. destruct (sub ++ b)%string as [|c s] eqn:E.
    + destruct sub; [simpl; discriminate | discriminate E].
    + simpl. assert (P : String.prefix sub (String c s) = true)
        by (apply prefix_app; exists b; now rewrite E).
      simpl in P. rewrite P. discriminate.
  - simpl append. cbn [count_from].
    destruct (String.prefix sub (String c (a ++ sub ++ b))); [discriminate | exact IH].
Qed.

(** [s.count(sub) != 0] says that [sub] occurs in [s]. *)
Lemma count_contains (s sub : string) : count s sub <> 0 <-> contains s sub.
Proof.
  split; [apply count_from_contains | apply contains_count].
Qed.

Lemma count_test_true (s sub : string) :
  negb (count s sub =? 0) = true <-> contains s sub.
Proof.
  rewrite <- count_contains, negb_true_iff, Nat.eqb_neq. reflexivity.
Qed.

Lemma count_test_false (s sub : string) :
  negb (count s sub =? 0) = false <-> ~ contains s sub.
Proof.
  rewrite <- count_contains, negb_false_iff, Nat.eqb_eq. lia.
Qed.

Lemma startswith_contains (s p : string) : startswith s p = true -> contains s p.
Proof.
  unfold startswith. rewrite prefix_app. intros [b E]. exists "", b. exact E.
Qed.

Lemma list_index_absent (l : list string) (x : string) :
  ~ In x l -> list_index l x = Raise ValueError.
Proof.
  induction l as [|y l IH]; simpl; intros H; [reflexivity|].
  destruct (String.eqb y x) eqn:E.
  - apply String.eqb_eq in E. elim H. now left.
  - rewrite IH; [reflexivity | intros Hin; apply H; now right].
Qed.

Lemma list_index_first (pre post : list string) (x : string) :
  ~ In x pre -> list_index (pre ++ x :: post) x = Ok (List.length pre).
Proof.
  induction pre as [|y pre IH]; simpl; intros H.
  - now rewrite String.eqb_refl.
  - destruct (String.eqb y x) eqn:E.
    + apply String.eqb_eq in E. elim H. now left.
    + rewrite IH; [reflexivity | intros Hin; apply H; now right].
Qed.

Lemma list_index_Ok (l : list string) (x : string) (i : nat) :
  list_index l x = Ok i -> nth_error l i = Some x /\ i < List.length l.
Proof.
  revert i. induction l as [|y l IH]; simpl; intros i H; [discriminate|].
  destruct (String.eqb y x) eqn:E.
  - apply String.eqb_eq in E. injection H as <-. subst y. simpl. split; [reflexivity | lia].
  - unfold fmap in H. apply bind_Ok in H. destruct H as (j & Hj & Hi).
    injection Hi as <-. destruct (IH j Hj) as [Hn Hl]. simpl. split; [exact Hn | lia].
Qed.

(** A line whose first character is not whitespace has a first token. *)
Lemma split_first_token (c : ascii) (s : string) :
  isspace c = false -> exists w ws, split (String c s) = String c w :: ws.
Proof.
  intros Hc. simpl. rewrite Hc. destruct s as [|c' s].
  - eexists _, _. reflexivity.
  - destruct (isspace c').
    + eexists _, _. reflexivity.
    + destruct (split (String c' s)); eexists _, _; reflexivity.
Qed.

Lemma split_on_length (sep : ascii) (s : string) :
  List.length (split_on sep s) = S (count s (String sep EmptyString)).
Proof.
  unfold count. induction s as [|c s IH]; [reflexivity|].
  cbn [split_on count_from String.prefix String.length Nat.sub].
  destruct (ascii_dec sep c) as [->|Hne].
  - rewrite Ascii.eqb_refl.
    replace (String.prefix "" s) with true by (destruct s; reflexivity).
    cbn [List.length]. now rewrite IH.
  - assert (E : Ascii.eqb c sep = false) by (apply Ascii.eqb_neq; congruence).
    rewrite E. destruct (split_on sep s); simpl in *; lia.
Qed.

Lemma count_char_cons (sep c : ascii) (s : string) :
  count (String c s) (String sep EmptyString) =
    if Ascii.eqb c sep then S (count s (String sep EmptyString))
    else count s (String sep EmptyString).
Proof.
  unfold count. cbn [count_from String.prefix String.length Nat.sub].
  destruct (ascii_dec sep c) as [->|Hne].
  - rewrite Ascii.eqb_refl.
    replace (String.prefix "" s) with true by (destruct s; reflexivity). reflexivity.
  - replace (Ascii.eqb c sep) with false
      by (symmetry; apply Ascii.eqb_neq; congruence).
    reflexivity.
Qed.

Lemma split_on_no_sep (sep : ascii) (s : string) :
  count s (String sep EmptyString) = 0 -> split_on sep s = [s].
Proof.
  induction s as [|c s IH]; [reflexivity|].
  rewrite count_char_cons. cbn [split_on].
  destruct (Ascii.eqb c sep); [discriminate|].
  intros H. now rewrite (IH H).
Qed.

Lemma split_on_app_sep (sep : ascii) (e1 e2 : string) :
  count e1 (String sep EmptyString) = 0 ->
  split_on sep (e1 ++ String sep e2) = e1 :: split_on sep e2.
Proof.
  induction e1 as [|c e1 IH].
  - intros _. cbn [append split_on]. now rewrite Ascii.eqb_refl.
  - rewrite count_char_cons. cbn [append split_on].
    destruct (Ascii.eqb c sep); [discriminate|].
    intros H. now rewrite (IH H).
Qed.

Lemma all_chars_no_sep (p : ascii -> bool) (sep : ascii) (s : string) :
  p sep = false -> all_chars p s = true -> count s (String sep EmptyString) = 0.
Proof.
  intros Hp. induction s as [|c s IH]; [reflexivity|].
  cbn [all_chars]. rewrite count_char_cons. intros H.
  apply andb_true_iff in H. destruct H as [Hc Hs].
  destruct (Ascii.eqb c sep) eqn:E; [|now apply IH].
  apply Ascii.eqb_eq in E. congruence.
Qed.

Lemma isdigit_no_hyphen (s : string) : isdigit s = true -> count s "-" = 0.
Proof.
  destruct s as [|c s]; [discriminate|]. unfold isdigit.
  now apply all_chars_no_sep.
Qed.

Lemma append_empty_r (s : string) : (s ++ "")%string = s.
Proof. induction s as [|c s IH]; [reflexivity | cbn [append]; now rewrite IH]. Qed.

Lemma length_append (a b : string) :
  String.length (a ++ b) = String.length a + String.length b.
Proof. induction a as [|c a IH]; [reflexivity | cbn [append String.length Nat.add]; now rewrite IH]. Qed.

Lemma substring_all (s : string) : substring 0 (String.length s) s = s.
Proof. induction s as [|c s IH]; [reflexivity | cbn [String.length substring]; now rewrite IH]. Qed.

Lemma substring_cut (s : string) :
  forall n, n <= String.length s ->
  s = (substring 0 n s ++ substring n (String.length s - n) s)%string.
Proof.
  induction s as [|c s IH]; intros [|n] H; cbn [String.length] in *.
  - reflexivity.
  - lia.
  - rewrite Nat.sub_0_r. cbn [append]. symmetry.
    exact (substring_all (String c s)).
  - cbn [substring Nat.sub append]. f_equal. apply IH. lia.
Qed.

(** A string that ends with [p] is what precedes [p], and [p]. *)
Lemma endswith_app (s p : string) :
  endswith s p = true ->
  s = (substring 0 (String.length s - String.length p) s ++ p)%string.
Proof.
  unfold endswith. intros H. apply andb_true_iff in H. destruct H as [Hl He].
  apply Nat.leb_le in Hl. apply String.eqb_eq in He.
  pose proof (substring_cut s (String.length s - String.length p)) as E.
  replace (String.length s - (String.length s - String.length p))
    with (String.length p) in E by lia.
  rewrite He in E. apply E. lia.
Qed.

Lemma replace_from_skip_all (old new s : string) :
  old <> "" -> replace_from old new (String.length s) s = "".
Proof.
  intros Ho. induction s as [|c s IH]; cbn [String.length replace_from].
  - destruct old; [congruence | reflexivity].
  - exact IH.
Qed.

(** [replace] rewrites a suffix when the suffix occurs nowhere else. *)
Lemma replace_only_suffix (old new body : string) :
  old <> "" -> only_at_end (body ++ old) old ->
  replace (body ++ old) old new = (body ++ new)%string.
Proof.
  intros Ho. unfold replace. induction body as [|c body IH]; intros H.
  - destruct old as [|a o]; [congruence|]. cbn [append replace_from].
    assert (P : String.prefix (String a o) (String a o) = true)
      by (apply prefix_app; exists ""; now rewrite append_empty_r).
    rewrite P. cbn [String.length Nat.sub]. rewrite Nat.sub_0_r.
    rewrite (replace_from_skip_all (String a o) new o Ho). apply append_empty_r.
  - cbn [append replace_from].
    destruct (String.prefix old (String c (body ++ old))) eqn:P.
    + apply prefix_app in P. destruct P as [b Hb].
      assert (E : b = "") by (apply (H "" b); exact Hb).
      subst b. rewrite append_empty_r in Hb.
      apply (f_equal String.length) in Hb.
      cbn [String.length] in Hb. rewrite length_append in Hb. lia.
    + f_equal. apply IH. intros a b E. apply (H (String c a) b).
      cbn [append]. now rewrite E.
Qed.

End PyFacts.

(** ** The classifier *)

Section Classifier.

Lemma is_error_msg_space (c : ascii) (rest : string) :
  isspace c = true -> is_error_msg (String c rest) = Ok true.
Proof.
  intros H. unfold is_error_msg, str_get. cbn [String.get bind]. now rewrite H.
Qed.

Lemma is_error_msg_marker (c : ascii) (rest : string) :
  isspace c = false ->
  startswith (String c rest) K_STARS = true
  \/ startswith (String c rest) K_MAKEDONE = true
  \/ contains (String c rest) K_PREPAR ->
  is_error_msg (String c rest) = Ok false.
Proof.
  intros Hc H. unfold is_error_msg, str_get. cbn [String.get bind]. rewrite Hc.
  destruct H as [H | [H | H]].
  - now rewrite H.
  - rewrite H, orb_true_r. reflexivity.
  - apply count_test_true in H. rewrite H, !orb_true_r. reflexivity.
Qed.

(** What [is_error_msg] answers once the whitespace and marker tests have
    failed: the tests on the first token. *)
Lemma is_error_msg_first (c : ascii) (rest first : string) (toks : list string) :
  isspace c = false ->
  startswith (String c rest) K_STARS = false ->
  startswith (String c rest) K_MAKEDONE = false ->
  ~ contains (String c rest) K_PREPAR ->
  split (String c rest) = first :: toks ->
  is_error_msg (String c rest) =
    if endswith first "g++" || endswith (String c rest) "gcc" then Ok false
    else if String.eqb first "ld" || String.eqb first "ar" || String.eqb first "gold"
    then Ok false
    else if count first "-" =? 1 then
      e1 <- list_get (split_on "-" first) 0 ;;
      e2 <- list_get (split_on "-" first) 1 ;;
      if (endswith e1 "g++" || endswith e1 "gcc") && isdigit e2 then Ok false
      else Ok true
    else Ok true.
Proof.
  intros Hc H1 H2 H3 Hs. apply count_test_false in H3.
  unfold is_error_msg, str_get. cbn [String.get bind].
  rewrite Hc, H1, H2, H3, Hs. reflexivity.
Qed.

(** [is_error_msg] raises on the empty line only. *)
Lemma is_error_msg_total (line : string) :
  line <> "" -> exists b, is_error_msg line = Ok b.
Proof.
  destruct line as [|c rest]; [congruence | intros _].
  destruct (isspace c) eqn:Hc.
  - exists true. now apply is_error_msg_space.
  - destruct (split_first_token c rest Hc) as (w & ws & Hs).
    unfold is_error_msg, str_get. cbn [String.get bind]. rewrite Hc, Hs.
    destruct (_ || _ || _); [now eexists|]. cbn [list_get nth_error bind].
    destruct (_ || _); [now eexists|].
    destruct (_ || _ || _); [now eexists|].
    destruct (count (String c w) "-" =? 1) eqn:Hn; [|now eexists].
    apply Nat.eqb_eq in Hn.
    pose proof (split_on_length "-" (String c w)) as Hl. rewrite Hn in Hl.
    destruct (split_on "-" (String c w)) as [|e1 [|e2 l]]; try discriminate Hl.
    cbn [list_get nth_error bind]. destruct (_ && _); now eexists.
Qed.

Lemma is_error_msg_nonempty (line : string) (b : bool) :
  is_error_msg line = Ok b -> line <> "".
Proof. intros H ->. discriminate H. Qed.

(** The classifier raises on no line that is not empty. *)
Lemma classify_total (line : string) :
  line <> "" -> exists c, classify line = Ok c.
Proof.
  intros H. destruct (is_error_msg_total line H) as [b Hb].
  unfold classify. rewrite Hb. cbn [bind].
  destruct b; [now eexists|].
  repeat (match goal with |- context [if ?b then _ else _] => destruct b end;
          try (eexists; reflexivity)).
Qed.

Lemma classify_nonempty (line : string) (c : Category) :
  classify line = Ok c -> line <> "".
Proof. intros H ->. discriminate H. Qed.

(** [get_processing_handler] returns the handler of the category. *)
Lemma get_processing_handler_classify (line : string) :
  line <> "" -> get_processing_handler line = fmap renderer (classify line).
Proof.
  destruct line as [|c rest]; [congruence | intros _].
  unfold get_processing_handler, classify, fmap. cbn [String.length Nat.eqb].
  destruct (is_error_msg (String c rest)) as [[|]|e]; cbn [bind renderer]; try reflexivity.
  repeat (match goal with |- context [if ?b then _ else _] => destruct b end;
          cbn [bind renderer]; try reflexivity).
Qed.

(** [process] renders the line with the renderer of its category. *)
Lemma process_classify_render (line : string) :
  line <> "" -> process line = (c <- classify line ;; render c line).
Proof.
  intros H. unfold process, process_with, enable, render. cbn [negb].
  rewrite (get_processing_handler_classify line H). unfold fmap.
  destruct (classify line); reflexivity.
Qed.

Lemma process_of_category (line : string) (c : Category) :
  classify line = Ok c -> process line = render c line.
Proof.
  intros H. rewrite (process_classify_render line (classify_nonempty line c H)).
  now rewrite H.
Qed.

Lemma classify_not_error (line : string) :
  is_error_msg line = Ok false ->
  classify line =
    if negb (count line K_COMPILE =? 0) then Ok CompileOnly
    else if negb (count line K_FPIC =? 0) then Ok SharedLibraryLink
    else if negb (count line K_OUTPUT =? 0) then
      if negb (count line K_CPP =? 0) || negb (count line K_ASM =? 0)
      then Ok CompileAndLink
      else Ok LinkOnly
    else if negb (count line K_PREPAR =? 0) then Ok Preparation
    else if negb (count line K_STARS =? 0) then Ok Separator
    else if negb (count line K_MAKEDONE =? 0) then Ok BuildDone
    else Ok Passthrough.
Proof. intros H. unfold classify. now rewrite H. Qed.

(** The tests on the first token that the script gets right: a first token
    that ends with ["g++"], or is a linker or archiver name, or is a
    versioned compiler name, makes the line no diagnostic. *)
Lemma is_error_msg_recognized (c : ascii) (rest first : string) (toks : list string) :
  isspace c = false ->
  startswith (String c rest) K_STARS = false ->
  startswith (String c rest) K_MAKEDONE = false ->
  ~ contains (String c rest) K_PREPAR ->
  split (String c rest) = first :: toks ->
  endswith first "g++" = true
  \/ first = "ld" \/ first = "ar" \/ first = "gold"
  \/ versioned first ->
  is_error_msg (String c rest) = Ok false.
Proof.
  intros Hc H1 H2 H3 Hs H.
  rewrite (is_error_msg_first c rest first toks Hc H1 H2 H3 Hs).
  destruct H as [H | [H | [H | [H | H]]]].
  - now rewrite H.
  - subst first. now destruct (_ || _).
  - subst first. now destruct (_ || _).
  - subst first. now destruct (_ || _).
  - destruct H as (e1 & e2 & -> & Hh & He1 & He2).
    destruct (_ || _); [reflexivity|].
    destruct (_ || _ || _); [reflexivity|].
    pose proof (isdigit_no_hyphen e2 He2) as Hd.
    assert (Hsp : split_on "-" (e1 ++ "-" ++ e2) = [e1; e2]).
    { change (e1 ++ "-" ++ e2)%string with (e1 ++ String "-" e2)%string.
      now rewrite (split_on_app_sep "-" e1 e2 Hh), (split_on_no_sep "-" e2 Hd). }
    assert (Hn : count (e1 ++ "-" ++ e2) "-" = 1).
    { pose proof (split_on_length "-" (e1 ++ "-" ++ e2)) as Hl.
      rewrite Hsp in Hl. cbn [List.length] in Hl. now injection Hl. }
    rewrite Hn, Hsp. cbn [Nat.eqb list_get nth_error bind].
    rewrite He2, andb_true_r.
    destruct He1 as [E | E]; rewrite E, ?orb_true_r; reflexivity.
Qed.

End Classifier.

(** ** The renderers *)

Section Renderer.

Ltac case_result H :=
  repeat match type of H with
         | context [bind ?m _] => destruct m; cbn [bind] in H
         | context [if ?b then _ else _] => destruct b
         end.

(** A renderer that hides the line returns no text. *)
Lemma render_hidden_empty (c : Category) (line text : string) :
  render c line = Ok (text, false) -> text = "".
Proof.
  unfold render. destruct c; cbn [renderer];
    unfold handle_passthrough, handle_compile_only, handle_convert_obj_to_so,
      handle_compile_and_link, handle_link_only, handle_preparation_msg,
      handle_separator, handler_makedone_message;
    intros H; case_result H; congruence.
Qed.

Lemma handle_compile_only_no_flag (line : string) :
  ~ contains line "-o" ->
  handle_compile_only line =
    Ok (arrow PREFIX_COMPILE
          (join " " (compiled_names K_CPP (split line) ++ compiled_names K_ASM (split line))),
        true).
Proof.
  intros H. apply count_test_false in H. unfold handle_compile_only.
  change (strip K_OUTPUT) with "-o". now rewrite H.
Qed.

Lemma handle_compile_only_no_token (line : string) :
  contains line "-o" -> ~ In "-o" (split line) ->
  handle_compile_only line = Raise ValueError.
Proof.
  intros H Hn. apply count_test_true in H. unfold handle_compile_only.
  change (strip K_OUTPUT) with "-o". now rewrite H, (list_index_absent _ _ Hn).
Qed.

Lemma handle_compile_and_link_flag_last (line : string) (pre : list string) :
  split line = pre ++ ["-o"] -> ~ In "-o" pre ->
  handle_compile_and_link line = Ok (arrow PREFIX_COMPLINK "a.out", true).
Proof.
  intros Hs Hn. unfold handle_compile_and_link.
  change (strip K_OUTPUT) with "-o". rewrite Hs, (list_index_first pre [] "-o" Hn).
  cbn [bind]. rewrite length_app. cbn [List.length]. now rewrite Nat.leb_refl.
Qed.

Lemma handle_link_only_flag_last (line : string) (pre : list string) :
  split line = pre ++ ["-o"] -> ~ In "-o" pre ->
  handle_link_only line = Ok (arrow PREFIX_LINK "a.out", true).
Proof.
  intros Hs Hn. unfold handle_link_only.
  change (strip K_OUTPUT) with "-o". rewrite Hs, (list_index_first pre [] "-o" Hn).
  cbn [bind]. rewrite length_app. cbn [List.length]. now rewrite Nat.leb_refl.
Qed.

(** The names of the script are the names of the specification when the
    source suffix occurs in each source token at its end only. *)
Lemma compiled_names_object_names (suffix : string) (toks : list string) :
  suffix <> "" ->
  (forall item, In item toks -> endswith item suffix = true -> only_at_end item suffix) ->
  compiled_names suffix toks
  = map (object_name suffix) (filter (fun item => endswith item suffix) toks).
Proof.
  intros Hs H. unfold compiled_names. apply map_ext_in. intros item Hin.
  apply filter_In in Hin. destruct Hin as [Hin He].
  unfold object_name. f_equal.
  pose proof (endswith_app item suffix He) as E.
  rewrite E at 1. apply replace_only_suffix; [exact Hs|].
  rewrite <- E. now apply H.
Qed.

End Renderer.

(** ** The properties of the specification *)

(** C1 (the script departs from it).  The line ["gcc -c foo.c"] does not
    start with whitespace or a marker and does not contain the preparation
    marker, and its first token ["gcc"] ends with the compiler suffix
    ["gcc"]; yet [is_error_msg] answers [True], the category is [Diagnostic]
    and the line is printed as it is.  The test of the script reads
    [line.endswith("gcc")] where the first token is meant. *)
Theorem C1_gcc_line_taken_for_diagnostic :
  let line := "gcc -c foo.c" in
  line <> ""
  /\ rstrip line = line
  /\ starts_with_space line = false
  /\ startswith line K_STARS = false
  /\ startswith line K_MAKEDONE = false
  /\ ~ contains line K_PREPAR
  /\ list_get (split line) 0 = Ok "gcc"
  /\ recognizable "gcc"
  /\ endswith line "gcc" = false
  /\ is_error_msg line = Ok true
  /\ classify line = Ok Diagnostic
  /\ process line = Ok (line, true).
Proof.
  cbv zeta. repeat split; try reflexivity; try discriminate.
  - apply count_test_false. reflexivity.
  - right. left. reflexivity.
Qed.

(** C2 (as stated, refuted).  The error line of make
    ["make: *** [all] Error 2"] contains the separator marker and does not
    start with whitespace, and is printed as it is; the line
    ["Preparation: g++ -c check.cc"] contains the preparation marker and is
    rendered as a compilation. *)
Lemma C2_marker_lines_shown :
  (contains "make: *** [all] Error 2" K_STARS
   /\ starts_with_space "make: *** [all] Error 2" = false
   /\ process "make: *** [all] Error 2" = Ok ("make: *** [all] Error 2", true)
   /\ process "make: *** [all] Error 2" <> Ok ("", false))
  /\ (contains "Preparation: g++ -c check.cc" K_PREPAR
      /\ starts_with_space "Preparation: g++ -c check.cc" = false
      /\ process "Preparation: g++ -c check.cc" = Ok (arrow PREFIX_COMPILE "check.o", true)
      /\ process "Preparation: g++ -c check.cc" <> Ok ("", false)).
Proof.
  repeat split; try reflexivity; try (apply count_test_true; reflexivity);
    vm_compute; discriminate.
Qed.

(** C2 (amended).  A line that [is_error_msg] does not take for a
    diagnostic, that contains the preparation, the separator or the
    build-done marker, and none of the markers [" -c"], [" -fPIC"] and
    [" -o"], is suppressed: [process] returns the empty text and [False]. *)
Theorem C2_marker_lines_suppressed (line : string) :
  is_error_msg line = Ok false ->
  contains line K_PREPAR \/ contains line K_STARS \/ contains line K_MAKEDONE ->
  ~ contains line K_COMPILE -> ~ contains line K_FPIC -> ~ contains line K_OUTPUT ->
  process line = Ok ("", false).
Proof.
  intros He Hm Hc Hf Ho.
  apply count_test_false in Hc, Hf, Ho.
  assert (Hcat : classify line = Ok Preparation \/ classify line = Ok Separator
                 \/ classify line = Ok BuildDone).
  { rewrite (classify_not_error line He), Hc, Hf, Ho.
    destruct (negb (count line K_PREPAR =? 0)) eqn:Hp; [now left|].
    destruct (negb (count line K_STARS =? 0)) eqn:Hs; [right; now left|].
    destruct (negb (count line K_MAKEDONE =? 0)) eqn:Hd; [right; now right|].
    apply count_test_false in Hp, Hs, Hd. tauto. }
  destruct Hcat as [H | [H | H]]; rewrite (process_of_category line _ H); reflexivity.
Qed.

Lemma C2_marker_lines_suppressed_witness :
  is_error_msg "*** Building target demo ***" = Ok false
  /\ process "*** Building target demo ***" = Ok ("", false).
Proof.
  split; [reflexivity|].
  apply (C2_marker_lines_suppressed "*** Building target demo ***").
  - reflexivity.
  - right. left. apply count_test_true. reflexivity.
  - apply count_test_false. reflexivity.
  - apply count_test_false. reflexivity.
  - apply count_test_false. reflexivity.
Defined.

(** C3 (the script departs from it).  The compile-only renderer looks for
    ["-o"] as a substring of the line and then for the token ["-o"]: on
    ["g++ -c demo-old.cc"] the lookup raises [ValueError].  The other three
    renderers raise as well on lines that the classifier sends to them: no
    token ["-o"] in ["g++ -fPIC -shared a.o"], ["g++ -omain main.cc"] and
    ["ld -ofinal a.o"], and no token after ["-o"] in
    ["g++ -fPIC -shared -o"] and ["g++ -c demo.cc -o"], the case for which
    only [handle_compile_and_link] and [handle_link_only] have a fallback.
    The main loop hands such lines to [process]: stripping them on the right
    changes nothing. *)
Theorem C3_renderers_raise :
  (classify "g++ -c demo-old.cc" = Ok CompileOnly
   /\ rstrip "g++ -c demo-old.cc" = "g++ -c demo-old.cc"
   /\ process "g++ -c demo-old.cc" = Raise ValueError)
  /\ (classify "g++ -c demo.cc -o" = Ok CompileOnly
      /\ process "g++ -c demo.cc -o" = Raise IndexError)
  /\ (classify "g++ -fPIC -shared a.o" = Ok SharedLibraryLink
      /\ process "g++ -fPIC -shared a.o" = Raise ValueError)
  /\ (classify "g++ -fPIC -shared -o" = Ok SharedLibraryLink
      /\ process "g++ -fPIC -shared -o" = Raise IndexError)
  /\ (classify "g++ -omain main.cc" = Ok CompileAndLink
      /\ process "g++ -omain main.cc" = Raise ValueError)
  /\ (classify "ld -ofinal a.o" = Ok LinkOnly
      /\ process "ld -ofinal a.o" = Raise ValueError).
Proof. repeat split; reflexivity. Qed.

(** C4 (the script departs from it).  In ["g++ -c boot.stage2.s"] no token
    is ["-o"] and the one source token is ["boot.stage2.s"], whose name with
    the suffix rewritten is ["boot.stage2.o"]; the script replaces every
    [".s"] of the token and prints ["boot.otage2.o"]. *)
Theorem C4_suffix_replaced_inside_name :
  let line := "g++ -c boot.stage2.s" in
  classify line = Ok CompileOnly
  /\ rstrip line = line
  /\ split line = ["g++"; "-c"; "boot.stage2.s"]
  /\ ~ In "-o" (split line)
  /\ filter (fun item => endswith item K_CPP || endswith item K_ASM) (split line)
     = ["boot.stage2.s"]
  /\ object_name K_ASM "boot.stage2.s" = "boot.stage2.o"
  /\ process line = Ok (arrow PREFIX_COMPILE "boot.otage2.o", true)
  /\ process line <> Ok (arrow PREFIX_COMPILE "boot.stage2.o", true).
Proof.
  cbv zeta. repeat split; try reflexivity.
  - vm_compute. intros [H | [H | [H | []]]]; discriminate H.
  - vm_compute. discriminate.
Qed.

(** C5.  When the one token ["-o"] of a line is its last token, the
    compile-and-link renderer and the link-only renderer return their prefix
    followed by [" => a.out"], to be printed; no exception is raised. *)
Theorem C5_output_flag_last_falls_back (line : string) (pre : list string) :
  split line = pre ++ ["-o"] -> ~ In "-o" pre ->
  (classify line = Ok CompileAndLink ->
   render CompileAndLink line = Ok (arrow PREFIX_COMPLINK "a.out", true)
   /\ process line = Ok (arrow PREFIX_COMPLINK "a.out", true))
  /\ (classify line = Ok LinkOnly ->
      render LinkOnly line = Ok (arrow PREFIX_LINK "a.out", true)
      /\ process line = Ok (arrow PREFIX_LINK "a.out", true)).
Proof.
  intros Hs Hn. split; intros Hc; rewrite (process_of_category line _ Hc);
    unfold render; cbn [renderer].
  - now rewrite (handle_compile_and_link_flag_last line pre Hs Hn).
  - now rewrite (handle_link_only_flag_last line pre Hs Hn).
Qed.

Lemma C5_output_flag_last_falls_back_witness :
  (split "g++ main.cc -o" = ["g++"; "main.cc"] ++ ["-o"]
   /\ ~ In "-o" ["g++"; "main.cc"]
   /\ classify "g++ main.cc -o" = Ok CompileAndLink
   /\ process "g++ main.cc -o" = Ok (arrow PREFIX_COMPLINK "a.out", true))
  /\ (split "ld main.o -o" = ["ld"; "main.o"] ++ ["-o"]
      /\ ~ In "-o" ["ld"; "main.o"]
      /\ classify "ld main.o -o" = Ok LinkOnly
      /\ process "ld main.o -o" = Ok (arrow PREFIX_LINK "a.out", true)).
Proof.
  assert (N1 : ~ In "-o" ["g++"; "main.cc"])
    by (intros [H | [H | []]]; discriminate H).
  assert (N2 : ~ In "-o" ["ld"; "main.o"])
    by (intros [H | [H | []]]; discriminate H).
  split; (split; [reflexivity | split; [assumption | split; [reflexivity|]]]).
  - apply (C5_output_flag_last_falls_back "g++ main.cc -o" ["g++"; "main.cc"]);
      [reflexivity | exact N1 | reflexivity].
  - apply (C5_output_flag_last_falls_back "ld main.o -o" ["ld"; "main.o"]);
      [reflexivity | exact N2 | reflexivity].
Defined.

(** C6.  A line that is not a diagnostic, without [" -c"] and [" -fPIC"]
    and with [" -o"], is [CompileAndLink] when it contains [".cc"] or
    [".s"], and [LinkOnly] otherwise; ["ld -o final a.o b.o"] is [LinkOnly]
    and is rendered as the link prefix followed by [" => final"]. *)
Theorem C6_link_categories :
  (forall line : string,
      is_error_msg line = Ok false ->
      ~ contains line K_COMPILE -> ~ contains line K_FPIC -> contains line K_OUTPUT ->
      (contains line K_CPP \/ contains line K_ASM ->
       classify line = Ok CompileAndLink
       /\ get_processing_handler line = Ok handle_compile_and_link)
      /\ (~ contains line K_CPP -> ~ contains line K_ASM ->
          classify line = Ok LinkOnly
          /\ get_processing_handler line = Ok handle_link_only))
  /\ classify "ld -o final a.o b.o" = Ok LinkOnly
  /\ render LinkOnly "ld -o final a.o b.o" = Ok (arrow PREFIX_LINK "final", true)
  /\ process "ld -o final a.o b.o" = Ok (arrow PREFIX_LINK "final", true).
Proof.
  split; [|repeat split; reflexivity].
  intros line He Hc Hf Ho.
  pose proof (is_error_msg_nonempty line false He) as Hne.
  apply count_test_false in Hc, Hf. apply count_test_true in Ho.
  rewrite (get_processing_handler_classify line Hne).
  rewrite (classify_not_error line He), Hc, Hf, Ho.
  split.
  - intros [H | H]; apply count_test_true in H; rewrite H, ?orb_true_r;
      split; reflexivity.
  - intros H1 H2. apply count_test_false in H1, H2. rewrite H1, H2.
    split; reflexivity.
Qed.

Lemma C6_link_categories_witness :
  (is_error_msg "g++ -o myprog a.cc b.cc" = Ok false
   /\ classify "g++ -o myprog a.cc b.cc" = Ok CompileAndLink)
  /\ (is_error_msg "ld -o final a.o b.o" = Ok false
      /\ classify "ld -o final a.o b.o" = Ok LinkOnly).
Proof.
  destruct C6_link_categories as [H _].
  split; (split; [reflexivity|]).
  - apply (H "g++ -o myprog a.cc b.cc");
      [reflexivity | apply count_test_false; reflexivity
       | apply count_test_false; reflexivity | apply count_test_true; reflexivity
       | left; apply count_test_true; reflexivity].
  - apply (H "ld -o final a.o b.o");
      [reflexivity | apply count_test_false; reflexivity
       | apply count_test_false; reflexivity | apply count_test_true; reflexivity
       | apply count_test_false; reflexivity | apply count_test_false; reflexivity].
Defined.

(** C7.  A line whose first character is whitespace is a [Diagnostic], and
    it is rendered as itself, to be printed. *)
Theorem C7_leading_whitespace_is_diagnostic (line : string) :
  line <> "" -> starts_with_space line = true ->
  is_error_msg line = Ok true
  /\ classify line = Ok Diagnostic
  /\ render Diagnostic line = Ok (line, true)
  /\ process line = Ok (line, true).
Proof.
  destruct line as [|c rest]; [congruence | intros _ Hc]. cbn [starts_with_space] in Hc.
  pose proof (is_error_msg_space c rest Hc) as He.
  assert (Hcat : classify (String c rest) = Ok Diagnostic)
    by (unfold classify; now rewrite He).
  repeat split; try assumption.
  now rewrite (process_of_category _ _ Hcat).
Qed.

Lemma C7_leading_whitespace_is_diagnostic_witness :
  "   demo.cc:3:1: note: declared here" <> ""
  /\ starts_with_space "   demo.cc:3:1: note: declared here" = true
  /\ process "   demo.cc:3:1: note: declared here"
     = Ok ("   demo.cc:3:1: note: declared here", true).
Proof.
  split; [discriminate | split; [reflexivity|]].
  apply (C7_leading_whitespace_is_diagnostic "   demo.cc:3:1: note: declared here");
    [discriminate | reflexivity].
Defined.

(** C8.  On ["g++-9 -c foo.cc"] the first token ["g++-9"] fails the plain
    tests, has one hyphen, and splits into ["g++"] and the digits ["9"]; the
    line is not a diagnostic and its category is [CompileOnly]. *)
Theorem C8_versioned_compiler_line :
  let line := "g++-9 -c foo.cc" in
  list_get (split line) 0 = Ok "g++-9"
  /\ endswith "g++-9" "g++" || endswith line "gcc" = false
  /\ count "g++-9" "-" = 1
  /\ split_on "-" "g++-9" = ["g++"; "9"]
  /\ endswith "g++" "g++" = true
  /\ isdigit "9" = true
  /\ is_error_msg line = Ok false
  /\ classify line = Ok CompileOnly
  /\ get_processing_handler line = Ok handle_compile_only.
Proof. cbv zeta. repeat split; reflexivity. Qed.

(** C9.  Whatever the switch, when [process] returns [False] as its second
    component the text it returns is empty. *)
Theorem C9_hidden_line_has_no_text (enabled : bool) (line text : string) :
  process_with enabled line = Ok (text, false) -> text = "".
Proof.
  destruct enabled.
  - destruct line as [|c rest]; [discriminate|].
    change (process_with true (String c rest)) with (process (String c rest)).
    rewrite process_classify_render by discriminate.
    destruct (classify (String c rest)) as [cat|e]; cbn [bind]; [|discriminate].
    apply render_hidden_empty.
  - unfold process_with. cbn [negb]. discriminate.
Qed.

Lemma C9_hidden_line_has_no_text_witness :
  process_with true "make: DONE demo" = Ok ("", false) /\ "" = "".
Proof.
  split; [reflexivity|].
  apply (C9_hidden_line_has_no_text true "make: DONE demo" ""). reflexivity.
Defined.

(** C10.  On a [CompileOnly] line without a token ["-o"], whenever a text is
    rendered the names it lists are those of the tokens that end with
    [".cc"], in their order, followed by those of the tokens that end with
    [".s"], in their order; a text is rendered when ["-o"] does not occur in
    the line at all.  So ["g++ -c a.s dir/b.cc"] gives ["b.o a.o"]. *)
Theorem C10_cpp_names_before_asm_names :
  (forall line : string,
      classify line = Ok CompileOnly -> ~ In "-o" (split line) ->
      let cpp := compiled_names K_CPP (split line) in
      let asm := compiled_names K_ASM (split line) in
      (~ contains line "-o" ->
       process line = Ok (arrow PREFIX_COMPILE (join " " (cpp ++ asm)), true))
      /\ (forall r : handled,
             process line = Ok r ->
             r = (arrow PREFIX_COMPILE (join " " (cpp ++ asm)), true)))
  /\ process "g++ -c a.s dir/b.cc" = Ok (arrow PREFIX_COMPILE "b.o a.o", true).
Proof.
  split; [|reflexivity].
  intros line Hc Hn cpp asm. rewrite (process_of_category line _ Hc).
  unfold render; cbn [renderer]. split.
  - intros H. now rewrite (handle_compile_only_no_flag line H).
  - intros r Hr. destruct (count line "-o" =? 0) eqn:E.
    + assert (H : ~ contains line "-o")
        by (apply count_test_false; now rewrite E).
      rewrite (handle_compile_only_no_flag line H) in Hr. now injection Hr.
    + assert (H : contains line "-o")
        by (apply count_test_true; now rewrite E).
      rewrite (handle_compile_only_no_token line H Hn) in Hr. discriminate Hr.
Qed.

Lemma C10_cpp_names_before_asm_names_witness :
  classify "g++ -c a.s dir/b.cc" = Ok CompileOnly
  /\ ~ In "-o" (split "g++ -c a.s dir/b.cc")
  /\ process "g++ -c a.s dir/b.cc"
     = Ok (arrow PREFIX_COMPILE
             (join " " (compiled_names K_CPP (split "g++ -c a.s dir/b.cc")
                        ++ compiled_names K_ASM (split "g++ -c a.s dir/b.cc"))),
           true).
Proof.
  assert (N : ~ In "-o" (split "g++ -c a.s dir/b.cc"))
    by (vm_compute; intros [H | [H | [H | [H | []]]]]; discriminate H).
  split; [reflexivity | split; [exact N|]].
  destruct C10_cpp_names_before_asm_names as [H _].
  apply (H "g++ -c a.s dir/b.cc"); [reflexivity | exact N|].
  apply count_test_false. reflexivity.
Defined.

(** ** More facts on the Python built-ins *)

Section TokenFacts.

Lemma append_assoc (a b c : string) : ((a ++ b) ++ c = a ++ (b ++ c))%string.
Proof. induction a as [|x a IH]; [reflexivity | cbn [append]; now rewrite IH]. Qed.

Lemma contains_cons (c : ascii) (s sub : string) :
  contains s sub -> contains (String c s) sub.
Proof. intros (a & b & E). exists (String c a), b. now rewrite E. Qed.

Lemma contains_trans (s mid sub : string) :
  contains s mid -> contains mid sub -> contains s sub.
Proof.
  intros (x & y & E) (u & v & F). subst s mid.
  exists (x ++ u)%string, (v ++ y)%string. now rewrite !append_assoc.
Qed.

Lemma split_unfold (c : ascii) (s : string) :
  split (String c s) =
    if isspace c then split s
    else
      match s with
      | EmptyString => [String c EmptyString]
      | String c' _ =>
          if isspace c' then String c EmptyString :: split s
          else
            match split s with
            | w :: ws => String c w :: ws
            | [] => [String c EmptyString]
            end
      end.
Proof. reflexivity. Qed.

(** The first token of a line that starts with no whitespace starts the line. *)
Lemma split_head_prefix (s : string) :
  forall c, isspace c = false ->
  exists w ws b, split (String c s) = String c w :: ws /\ s = (w ++ b)%string.
Proof.
  induction s as [|c' s IH]; intros c Hc; rewrite split_unfold, Hc.
  - exists "", [], "". split; reflexivity.
  - destruct (isspace c') eqn:Hc'.
    + exists "", (split (String c' s)), (String c' s). split; reflexivity.
    + destruct (IH c' Hc') as (w & ws & b & Hs & E). rewrite Hs.
      exists (String c' w), ws, b. split; [reflexivity | now rewrite E].
Qed.

(** Every token of a line occurs in the line. *)
Lemma split_tokens_contained (tok : string) :
  forall s, In tok (split s) -> contains s tok.
Proof.
  induction s as [|c s IH]; [intros [] |]. rewrite split_unfold.
  destruct (isspace c) eqn:Hc.
  - intros H. apply contains_cons. now apply IH.
  - destruct s as [|c' s'].
    + intros [<- | []]. exists "", "". reflexivity.
    + destruct (isspace c') eqn:Hc'.
      * intros [<- | H].
        -- exists "", (String c' s'). reflexivity.
        -- apply contains_cons. now apply IH.
      * destruct (split_head_prefix s' c' Hc') as (w & ws & b & Hs & E).
        rewrite Hs. intros [<- | H].
        -- exists "", b. cbn [append]. now rewrite E.
        -- apply contains_cons. apply IH. rewrite Hs. now right.
Qed.

Lemma list_get_after (pre post : list string) (x t : string) :
  list_get (pre ++ x :: t :: post) (List.length pre + 1) = Ok t.
Proof.
  unfold list_get. rewrite nth_error_app2 by lia.
  replace (List.length pre + 1 - List.length pre) with 1 by lia. reflexivity.
Qed.

Lemma list_get_past (pre : list string) (x : string) :
  list_get (pre ++ [x]) (List.length pre + 1) = Raise IndexError.
Proof.
  unfold list_get.
  replace (nth_error (pre ++ [x]) (List.length pre + 1)) with (@None string);
    [reflexivity|].
  symmetry. apply nth_error_None. rewrite length_app. cbn [List.length]. lia.
Qed.



(** The fields of [split_on] hold no separator. *)
Lemma split_on_fields (sep : ascii) (s : string) :
  forall w, In w (split_on sep s) -> count w (String sep EmptyString) = 0.
Proof.
  induction s as [|c s IH]; intros w.
  - intros [<- | []]. reflexivity.
  - cbn [split_on]. destruct (Ascii.eqb c sep) eqn:E.
    + intros [<- | H]; [reflexivity | now apply IH].
    + destruct (split_on sep s) as [|w0 ws] eqn:Hs.
      * intros [<- | []]. rewrite count_char_cons, E. reflexivity.
      * intros [<- | H].
        -- rewrite count_char_cons, E. apply IH. now left.
        -- apply IH. now right.
Qed.

Lemma split_on_nonempty (sep : ascii) (s : string) : split_on sep s <> [].
Proof.
  destruct s as [|c s]; cbn [split_on]; [discriminate|].
  destruct (Ascii.eqb c sep); [discriminate|].
  destruct (split_on sep s); discriminate.
Qed.

Lemma last_In {A : Type} (l : list A) (d : A) : l <> [] -> In (last l d) l.
Proof.
  induction l as [|x l IH]; [congruence | intros _].
  destruct l as [|y l]; [now left|].
  right. apply IH. discriminate.
Qed.

(** [basename] returns a name without slash. *)
Lemma basename_no_slash (p : string) : count (basename p) "/" = 0.
Proof.
  unfold basename. apply (split_on_fields "/" p).
  apply last_In. apply split_on_nonempty.
Qed.

(** A string with one separator is two fields around it. *)
Lemma split_on_one (sep : ascii) (s : string) :
  count s (String sep EmptyString) = 1 ->
  exists e1 e2, split_on sep s = [e1; e2]
                /\ s = (e1 ++ String sep e2)%string
                /\ count e1 (String sep EmptyString) = 0.
Proof.
  induction s as [|c s IH]; [discriminate|].
  rewrite count_char_cons. cbn [split_on].
  destruct (Ascii.eqb c sep) eqn:E.
  - intros H. injection H as H. apply Ascii.eqb_eq in E. subst c.
    exists "", s. rewrite (split_on_no_sep sep s H). repeat split; reflexivity.
  - intros H. destruct (IH H) as (e1 & e2 & Hs & Es & Hc).
    exists (String c e1), e2. rewrite Hs. repeat split.
    + cbn [append]. now rewrite Es.
    + now rewrite count_char_cons, E.
Qed.

(** [normpath] leaves a plain file name as it is. *)
Lemma normpath_plain (t : string) :
  count t "/" = 0 -> t <> "" -> t <> "." -> t <> ".." -> normpath t = t.
Proof.
  intros Hs H0 H1 H2. unfold normpath.
  apply String.eqb_neq in H0, H1, H2. rewrite H0.
  assert (Hp : startswith t "/" = false).
  { destruct (startswith t "/") eqn:P; [|reflexivity].
    apply startswith_contains, contains_count in P. congruence. }
  rewrite Hp, (split_on_no_sep "/" t Hs).
  cbn [fold_left]. unfold normpath_step. rewrite H0, H1, H2.
  cbn [orb negb rev app join String.concat repeat_string append]. now rewrite H0.
Qed.

End TokenFacts.

(** ** Further properties of the script *)

Section Handlers.

Lemma output_flag_found (line : string) (pre rest : list string) :
  split line = pre ++ "-o" :: rest -> contains line "-o".
Proof.
  intros Hs. apply split_tokens_contained. rewrite Hs.
  apply in_or_app. right. now left.
Qed.

Lemma handle_compile_only_target (line : string) (pre post : list string) (obj : string) :
  split line = pre ++ "-o" :: obj :: post -> ~ In "-o" pre ->
  handle_compile_only line = Ok (arrow PREFIX_COMPILE obj, true).
Proof.
  intros Hs Hn. pose proof (output_flag_found line pre _ Hs) as Hc.
  apply count_test_true in Hc. unfold handle_compile_only.
  change (strip K_OUTPUT) with "-o". rewrite Hc, Hs, (list_index_first pre _ "-o" Hn).
  cbn [bind]. now rewrite list_get_after.
Qed.

Lemma handle_compile_only_flag_last (line : string) (pre : list string) :
  split line = pre ++ ["-o"] -> ~ In "-o" pre ->
  handle_compile_only line = Raise IndexError.
Proof.
  intros Hs Hn. pose proof (output_flag_found line pre _ Hs) as Hc.
  apply count_test_true in Hc. unfold handle_compile_only.
  change (strip K_OUTPUT) with "-o". rewrite Hc, Hs, (list_index_first pre _ "-o" Hn).
  cbn [bind]. now rewrite list_get_past.
Qed.

Lemma handle_convert_obj_to_so_target (line : string) (pre post : list string) (so : string) :
  split line = pre ++ "-o" :: so :: post -> ~ In "-o" pre ->
  handle_convert_obj_to_so line = Ok (arrow PREFIX_SHAREDLIB (normpath so), true).
Proof.
  intros Hs Hn. unfold handle_convert_obj_to_so.
  change (strip K_OUTPUT) with "-o". rewrite Hs, (list_index_first pre _ "-o" Hn).
  cbn [bind]. now rewrite list_get_after.
Qed.

Lemma handle_convert_obj_to_so_flag_last (line : string) (pre : list string) :
  split line = pre ++ ["-o"] -> ~ In "-o" pre ->
  handle_convert_obj_to_so line = Raise IndexError.
Proof.
  intros Hs Hn. unfold handle_convert_obj_to_so.
  change (strip K_OUTPUT) with "-o". rewrite Hs, (list_index_first pre _ "-o" Hn).
  cbn [bind]. now rewrite list_get_past.
Qed.

Lemma length_after (pre post : list string) (x t : string) :
  (List.length (pre ++ x :: t :: post) <=? List.length pre + 1) = false.
Proof. apply Nat.leb_gt. rewrite length_app. cbn [List.length]. lia. Qed.

Lemma handle_compile_and_link_target (line : string) (pre post : list string) (exe : string) :
  split line = pre ++ "-o" :: exe :: post -> ~ In "-o" pre ->
  handle_compile_and_link line = Ok (arrow PREFIX_COMPLINK (normpath exe), true).
Proof.
  intros Hs Hn. unfold handle_compile_and_link.
  change (strip K_OUTPUT) with "-o". rewrite Hs, (list_index_first pre _ "-o" Hn).
  cbn [bind]. now rewrite length_after, list_get_after.
Qed.

Lemma handle_link_only_target (line : string) (pre post : list string) (exe : string) :
  split line = pre ++ "-o" :: exe :: post -> ~ In "-o" pre ->
  handle_link_only line = Ok (arrow PREFIX_LINK (normpath exe), true).
Proof.
  intros Hs Hn. unfold handle_link_only.
  change (strip K_OUTPUT) with "-o". rewrite Hs, (list_index_first pre _ "-o" Hn).
  cbn [bind]. now rewrite length_after, list_get_after.
Qed.

Lemma link_handlers_no_token (line : string) :
  ~ In "-o" (split line) ->
  handle_convert_obj_to_so line = Raise ValueError
  /\ handle_compile_and_link line = Raise ValueError
  /\ handle_link_only line = Raise ValueError.
Proof.
  intros Hn. unfold handle_convert_obj_to_so, handle_compile_and_link, handle_link_only.
  change (strip K_OUTPUT) with "-o". rewrite (list_index_absent _ _ Hn).
  repeat split; reflexivity.
Qed.

(** The categories whose renderer hides the line. *)
Lemma render_hidden_category (c : Category) (line text : string) :
  render c line = Ok (text, false) ->
  c = Preparation \/ c = Separator \/ c = BuildDone.
Proof.
  unfold render. destruct c; cbn [renderer]; auto;
    unfold handle_passthrough, handle_compile_only, handle_convert_obj_to_so,
      handle_compile_and_link, handle_link_only;
    intros H;
    repeat match type of H with
           | context [bind ?m _] => destruct m; cbn [bind] in H
           | context [if ?b then _ else _] => destruct b
           end; discriminate H.
Qed.

(** What [classify] has tested when it answers one of these categories. *)
Lemma classify_hidden_tests (line : string) (c : Category) :
  classify line = Ok c ->
  c = Preparation \/ c = Separator \/ c = BuildDone ->
  is_error_msg line = Ok false
  /\ ~ contains line K_COMPILE /\ ~ contains line K_FPIC /\ ~ contains line K_OUTPUT
  /\ (contains line K_PREPAR \/ contains line K_STARS \/ contains line K_MAKEDONE).
Proof.
  unfold classify. destruct (is_error_msg line) as [[|]|e]; cbn [bind].
  - intros H [-> | [-> | ->]]; discriminate H.
  - destruct (negb (count line K_COMPILE =? 0)) eqn:Hc;
      [intros H [-> | [-> | ->]]; discriminate H|].
    destruct (negb (count line K_FPIC =? 0)) eqn:Hf;
      [intros H [-> | [-> | ->]]; discriminate H|].
    destruct (negb (count line K_OUTPUT =? 0)) eqn:Ho;
      [destruct (_ || _); intros H [-> | [-> | ->]]; discriminate H|].
    apply count_test_false in Hc, Hf, Ho.
    destruct (negb (count line K_PREPAR =? 0)) eqn:Hp;
      [apply count_test_true in Hp; intros _ _; repeat split; auto|].
    destruct (negb (count line K_STARS =? 0)) eqn:Hs;
      [apply count_test_true in Hs; intros _ _; repeat split; auto|].
    destruct (negb (count line K_MAKEDONE =? 0)) eqn:Hd;
      [apply count_test_true in Hd; intros _ _; repeat split; auto|].
    intros H [-> | [-> | ->]]; discriminate H.
  - discriminate.
Qed.

Lemma classify_hidden (line : string) :
  is_error_msg line = Ok false ->
  ~ contains line K_COMPILE -> ~ contains line K_FPIC -> ~ contains line K_OUTPUT ->
  contains line K_PREPAR \/ contains line K_STARS \/ contains line K_MAKEDONE ->
  classify line = Ok Preparation \/ classify line = Ok Separator
  \/ classify line = Ok BuildDone.
Proof.
  intros He Hc Hf Ho Hm. apply count_test_false in Hc, Hf, Ho.
  rewrite (classify_not_error line He), Hc, Hf, Ho.
  destruct (negb (count line K_PREPAR =? 0)) eqn:Hp; [now left|].
  destruct (negb (count line K_STARS =? 0)) eqn:Hs; [right; now left|].
  destruct (negb (count line K_MAKEDONE =? 0)) eqn:Hd; [right; now right|].
  apply count_test_false in Hp, Hs, Hd. tauto.
Qed.

Lemma classify_no_marker (line : string) :
  line <> "" ->
  ~ contains line K_COMPILE -> ~ contains line K_FPIC -> ~ contains line K_OUTPUT ->
  ~ contains line K_PREPAR -> ~ contains line K_STARS -> ~ contains line K_MAKEDONE ->
  classify line = Ok Diagnostic \/ classify line = Ok Passthrough.
Proof.
  intros Hne Hc Hf Ho Hp Hs Hd. apply count_test_false in Hc, Hf, Ho, Hp, Hs, Hd.
  destruct (is_error_msg_total line Hne) as [[|] He].
  - left. unfold classify. now rewrite He.
  - right. now rewrite (classify_not_error line He), Hc, Hf, Ho, Hp, Hs, Hd.
Qed.


End Handlers.

(** X1.  The classifier raises on no line: [get_processing_handler] returns
    one of the handlers for every line, the empty one included, and
    [is_error_msg] raises on the empty line only, which
    [get_processing_handler] never hands to it. *)
Theorem X1_classifier_never_raises (line : string) :
  (exists c, get_processing_handler line = Ok (renderer c))
  /\ (forall e, is_error_msg line = Raise e -> line = "")
  /\ is_error_msg "" = Raise IndexError.
Proof.
  split; [|split; [|reflexivity]].
  - destruct line as [|c rest]; [exists Passthrough; reflexivity|].
    assert (Hne : String c rest <> "") by discriminate.
    destruct (classify_total _ Hne) as [cat Hc]. exists cat.
    now rewrite (get_processing_handler_classify _ Hne), Hc.
  - intros e He. destruct line as [|c rest]; [reflexivity|].
    destruct (is_error_msg_total (String c rest)) as [b Hb]; [discriminate|].
    rewrite Hb in He. discriminate He.
Qed.

(** X2.  [process] hides a line exactly when [is_error_msg] is false on it,
    none of [" -c"], [" -fPIC"], [" -o"] occurs in it and one of the
    preparation, separator and build-done markers does; the text is then
    empty. *)
Theorem X2_hidden_lines_exactly (line text : string) :
  process line = Ok (text, false) <->
  text = ""
  /\ is_error_msg line = Ok false
  /\ ~ contains line K_COMPILE /\ ~ contains line K_FPIC /\ ~ contains line K_OUTPUT
  /\ (contains line K_PREPAR \/ contains line K_STARS \/ contains line K_MAKEDONE).
Proof.
  split.
  - intros H. destruct line as [|c rest]; [discriminate H|].
    rewrite process_classify_render in H by discriminate.
    destruct (classify (String c rest)) as [cat|e] eqn:Hc; cbn [bind] in H;
      [|discriminate H].
    split; [exact (render_hidden_empty _ _ _ H)|].
    exact (classify_hidden_tests _ _ Hc (render_hidden_category _ _ _ H)).
  - intros (-> & He & Hc & Hf & Ho & Hm).
    destruct (classify_hidden line He Hc Hf Ho Hm) as [H | [H | H]];
      rewrite (process_of_category line _ H); reflexivity.
Qed.

Lemma X2_hidden_lines_exactly_witness :
  process "make: DONE demo" = Ok ("", false).
Proof.
  apply (X2_hidden_lines_exactly "make: DONE demo" "").
  split; [reflexivity|]. split; [reflexivity|].
  repeat split; try (apply count_test_false; reflexivity).
  right. right. apply count_test_true. reflexivity.
Defined.

(** X3.  A line in which none of the six markers occurs is returned as it
    is, to be printed, whether [is_error_msg] takes it for a diagnostic or
    not, and also when it is empty. *)
Theorem X3_marker_free_line_unchanged (line : string) :
  marker_free line -> process line = Ok (line, true).
Proof.
  intros (Hc & Hf & Ho & Hp & Hs & Hd).
  destruct line as [|c rest]; [reflexivity|].
  assert (Hne : String c rest <> "") by discriminate.
  destruct (classify_no_marker _ Hne Hc Hf Ho Hp Hs Hd) as [H | H];
    rewrite (process_of_category _ _ H); reflexivity.
Qed.

Lemma X3_marker_free_line_unchanged_witness :
  marker_free "demo.cc:3:1: warning: unused variable"
  /\ process "demo.cc:3:1: warning: unused variable"
     = Ok ("demo.cc:3:1: warning: unused variable", true).
Proof.
  assert (M : marker_free "demo.cc:3:1: warning: unused variable")
    by (repeat split; apply count_test_false; reflexivity).
  split; [exact M|].
  apply (X3_marker_free_line_unchanged "demo.cc:3:1: warning: unused variable" M).
Defined.

(** X4.  On a [CompileOnly] line with a token ["-o"], the text is the
    compile prefix, [" => "] and the token that follows the first ["-o"],
    as it is written (the path is not normalised). *)
Theorem X4_compile_only_shows_output_token (line obj : string) :
  classify line = Ok CompileOnly -> output_target (split line) obj ->
  process line = Ok (arrow PREFIX_COMPILE obj, true).
Proof.
  intros Hc (pre & post & Hs & Hn). rewrite (process_of_category line _ Hc).
  exact (handle_compile_only_target line pre post obj Hs Hn).
Qed.

Lemma X4_compile_only_shows_output_token_witness :
  classify "g++ -c src/demo.cc -o build/./demo.o -O2" = Ok CompileOnly
  /\ output_target (split "g++ -c src/demo.cc -o build/./demo.o -O2") "build/./demo.o"
  /\ process "g++ -c src/demo.cc -o build/./demo.o -O2"
     = Ok (arrow PREFIX_COMPILE "build/./demo.o", true).
Proof.
  assert (T : output_target (split "g++ -c src/demo.cc -o build/./demo.o -O2")
                "build/./demo.o").
  { exists ["g++"; "-c"; "src/demo.cc"], ["-O2"]. split; [reflexivity|].
    intros [H | [H | [H | []]]]; discriminate H. }
  split; [reflexivity | split; [exact T|]].
  apply (X4_compile_only_shows_output_token
           "g++ -c src/demo.cc -o build/./demo.o -O2" "build/./demo.o");
    [reflexivity | exact T].
Defined.

(** X5.  On a [SharedLibraryLink], [CompileAndLink] or [LinkOnly] line with
    a token ["-o"] followed by a token, the text is the prefix of the
    category, [" => "] and the normalised path of the token that follows
    the first ["-o"]; the line is printed. *)
Theorem X5_link_renderers_show_normalized_target (line target : string) :
  output_target (split line) target ->
  (classify line = Ok SharedLibraryLink ->
   process line = Ok (arrow PREFIX_SHAREDLIB (normpath target), true))
  /\ (classify line = Ok CompileAndLink ->
      process line = Ok (arrow PREFIX_COMPLINK (normpath target), true))
  /\ (classify line = Ok LinkOnly ->
      process line = Ok (arrow PREFIX_LINK (normpath target), true)).
Proof.
  intros (pre & post & Hs & Hn).
  repeat split; intros Hc; rewrite (process_of_category line _ Hc).
  - exact (handle_convert_obj_to_so_target line pre post target Hs Hn).
  - exact (handle_compile_and_link_target line pre post target Hs Hn).
  - exact (handle_link_only_target line pre post target Hs Hn).
Qed.

Lemma X5_link_renderers_show_normalized_target_witness :
  output_target (split "g++ -fPIC -shared -o lib//./libdemo.so a.o b.o") "lib//./libdemo.so"
  /\ classify "g++ -fPIC -shared -o lib//./libdemo.so a.o b.o" = Ok SharedLibraryLink
  /\ normpath "lib//./libdemo.so" = "lib/libdemo.so"
  /\ process "g++ -fPIC -shared -o lib//./libdemo.so a.o b.o"
     = Ok (arrow PREFIX_SHAREDLIB (normpath "lib//./libdemo.so"), true).
Proof.
  assert (T : output_target (split "g++ -fPIC -shared -o lib//./libdemo.so a.o b.o")
                "lib//./libdemo.so").
  { exists ["g++"; "-fPIC"; "-shared"], ["a.o"; "b.o"]. split; [reflexivity|].
    intros [H | [H | [H | []]]]; discriminate H. }
  split; [exact T | split; [reflexivity | split; [reflexivity|]]].
  apply (X5_link_renderers_show_normalized_target
           "g++ -fPIC -shared -o lib//./libdemo.so a.o b.o" "lib//./libdemo.so" T).
  reflexivity.
Defined.

Section Targets.

(** No token of a line is empty. *)
Lemma split_tokens_nonempty (tok : string) :
  forall s, In tok (split s) -> tok <> "".
Proof.
  induction s as [|c s IH]; [intros [] |]. rewrite split_unfold.
  destruct (isspace c) eqn:Hc; [exact IH|].
  destruct s as [|c' s'].
  - intros [<- | []]. discriminate.
  - destruct (isspace c') eqn:Hc'.
    + intros [<- | H]; [discriminate | now apply IH].
    + destruct (split_head_prefix s' c' Hc') as (w & ws & b & Hs & _).
      rewrite Hs. intros [<- | H]; [discriminate|].
      apply IH. rewrite Hs. now right.
Qed.

Lemma output_target_In (toks : list string) (target : string) :
  output_target toks target -> In "-o" toks /\ In target toks.
Proof.
  intros (pre & post & -> & _). split; apply in_or_app; right.
  - now left.
  - right. now left.
Qed.

(** What [classify] has found when it answers a linking category. *)
Lemma classify_link_tests (line : string) (c : Category) :
  classify line = Ok c ->
  (c = SharedLibraryLink -> contains line K_FPIC)
  /\ (c = CompileAndLink \/ c = LinkOnly -> contains line K_OUTPUT).
Proof.
  unfold classify. destruct (is_error_msg line) as [[|]|e]; cbn [bind].
  - intros H. injection H as <-. split; [discriminate | intros [H | H]; discriminate H].
  - destruct (negb (count line K_COMPILE =? 0)) eqn:Hc.
    { intros H. injection H as <-.
      split; [discriminate | intros [H | H]; discriminate H]. }
    destruct (negb (count line K_FPIC =? 0)) eqn:Hf.
    { intros H. injection H as <-. apply count_test_true in Hf.
      split; [now intros _ | intros [H | H]; discriminate H]. }
    destruct (negb (count line K_OUTPUT =? 0)) eqn:Ho.
    { apply count_test_true in Ho.
      destruct (_ || _); intros H; injection H as <-;
        (split; [discriminate | now intros _]). }
    repeat (match goal with |- context [if ?b then _ else _] => destruct b end;
            try (intros H; injection H as <-;
                 split; [discriminate | intros [H | H]; discriminate H])).
  - discriminate.
Qed.

Lemma output_marker_has_flag (line : string) :
  contains line K_OUTPUT -> contains line "-o".
Proof.
  intros H. apply (contains_trans line K_OUTPUT "-o" H). exists " ", "". reflexivity.
Qed.

End Targets.

(** X6.  When the token that follows the first ["-o"] is a plain file name
    (no slash, and not ["."] or [".."]), the three linking renderers show it
    as it is: the text is the prefix of the category, [" => "] and the
    name. *)
Theorem X6_plain_target_shown_as_written (line target : string) :
  output_target (split line) target ->
  ~ contains target "/" -> target <> "." -> target <> ".." ->
  (classify line = Ok SharedLibraryLink ->
   process line = Ok (arrow PREFIX_SHAREDLIB target, true))
  /\ (classify line = Ok CompileAndLink ->
      process line = Ok (arrow PREFIX_COMPLINK target, true))
  /\ (classify line = Ok LinkOnly ->
      process line = Ok (arrow PREFIX_LINK target, true)).
Proof.
  intros (pre & post & Hs & Hn) Hsl H1 H2.
  assert (H0 : target <> "").
  { apply (split_tokens_nonempty target line). rewrite Hs.
    apply in_or_app. right. right. now left. }
  assert (Hc0 : count target "/" = 0).
  { destruct (count target "/") eqn:E; [reflexivity|].
    elim Hsl. apply count_contains. now rewrite E. }
  pose proof (normpath_plain target Hc0 H0 H1 H2) as Hnp.
  repeat split; intros Hc; rewrite (process_of_category line _ Hc).
  - unfold render; cbn [renderer].
    now rewrite (handle_convert_obj_to_so_target line pre post target Hs Hn), Hnp.
  - unfold render; cbn [renderer].
    now rewrite (handle_compile_and_link_target line pre post target Hs Hn), Hnp.
  - unfold render; cbn [renderer].
    now rewrite (handle_link_only_target line pre post target Hs Hn), Hnp.
Qed.

Lemma X6_plain_target_shown_as_written_witness :
  output_target (split "g++ -o myprog a.cc b.cc") "myprog"
  /\ classify "g++ -o myprog a.cc b.cc" = Ok CompileAndLink
  /\ process "g++ -o myprog a.cc b.cc" = Ok (arrow PREFIX_COMPLINK "myprog", true).
Proof.
  assert (T : output_target (split "g++ -o myprog a.cc b.cc") "myprog").
  { exists ["g++"], ["a.cc"; "b.cc"]. split; [reflexivity|].
    intros [H | []]; discriminate H. }
  split; [exact T | split; [reflexivity|]].
  apply (X6_plain_target_shown_as_written "g++ -o myprog a.cc b.cc" "myprog" T).
  - apply count_test_false. reflexivity.
  - discriminate.
  - discriminate.
  - reflexivity.
Defined.

(** X7.  On a line without a token ["-o"] the lookup of the output flag
    raises [ValueError]: in the three linking renderers always, and in the
    compile-only renderer when ["-o"] occurs inside the line. *)
Theorem X7_no_output_token_raises_ValueError (line : string) :
  ~ In "-o" (split line) ->
  (classify line = Ok CompileOnly -> contains line "-o" ->
   process line = Raise ValueError)
  /\ (classify line = Ok SharedLibraryLink -> process line = Raise ValueError)
  /\ (classify line = Ok CompileAndLink -> process line = Raise ValueError)
  /\ (classify line = Ok LinkOnly -> process line = Raise ValueError).
Proof.
  intros Hn. destruct (link_handlers_no_token line Hn) as (H1 & H2 & H3).
  repeat split; intros Hc; rewrite (process_of_category line _ Hc);
    try assumption.
  intros H. exact (handle_compile_only_no_token line H Hn).
Qed.

Lemma X7_no_output_token_raises_ValueError_witness :
  ~ In "-o" (split "g++ -fPIC -shared a.o")
  /\ classify "g++ -fPIC -shared a.o" = Ok SharedLibraryLink
  /\ process "g++ -fPIC -shared a.o" = Raise ValueError.
Proof.
  assert (N : ~ In "-o" (split "g++ -fPIC -shared a.o"))
    by (vm_compute; intros [H | [H | [H | [H | []]]]]; discriminate H).
  split; [exact N | split; [reflexivity|]].
  destruct (X7_no_output_token_raises_ValueError "g++ -fPIC -shared a.o" N)
    as (_ & H & _).
  apply H. reflexivity.
Defined.

(** X8.  When the one token ["-o"] of a line is its last token, the
    compile-only renderer and the shared-library renderer raise
    [IndexError]: they have no fallback. *)
Theorem X8_output_flag_last_raises_IndexError (line : string) (pre : list string) :
  split line = pre ++ ["-o"] -> ~ In "-o" pre ->
  (classify line = Ok CompileOnly -> process line = Raise IndexError)
  /\ (classify line = Ok SharedLibraryLink -> process line = Raise IndexError).
Proof.
  intros Hs Hn. split; intros Hc; rewrite (process_of_category line _ Hc).
  - exact (handle_compile_only_flag_last line pre Hs Hn).
  - exact (handle_convert_obj_to_so_flag_last line pre Hs Hn).
Qed.

Lemma X8_output_flag_last_raises_IndexError_witness :
  split "g++ -c demo.cc -o" = ["g++"; "-c"; "demo.cc"] ++ ["-o"]
  /\ ~ In "-o" ["g++"; "-c"; "demo.cc"]
  /\ classify "g++ -c demo.cc -o" = Ok CompileOnly
  /\ process "g++ -c demo.cc -o" = Raise IndexError.
Proof.
  assert (N : ~ In "-o" ["g++"; "-c"; "demo.cc"])
    by (intros [H | [H | [H | []]]]; discriminate H).
  split; [reflexivity | split; [exact N | split; [reflexivity|]]].
  destruct (X8_output_flag_last_raises_IndexError
              "g++ -c demo.cc -o" ["g++"; "-c"; "demo.cc"] eq_refl N) as [H _].
  apply H. reflexivity.
Defined.

(** X9.  [process] returns, and raises nothing, on every line whose first
    token ["-o"] is followed by a token, and on every line in which neither
    ["-o"] nor [" -fPIC"] occurs. *)
Theorem X9_lines_processed_without_exception (line : string) :
  (exists target, output_target (split line) target)
  \/ (~ contains line "-o" /\ ~ contains line K_FPIC) ->
  exists r, process line = Ok r.
Proof.
  intros H. destruct line as [|c rest]; [eexists; reflexivity|].
  assert (Hne : String c rest <> "") by discriminate.
  destruct (classify_total _ Hne) as [cat Hc].
  rewrite (process_of_category _ _ Hc). unfold render.
  destruct H as [(target & pre & post & Hs & Hn) | [Ho Hf]].
  - destruct cat; cbn [renderer]; try (eexists; reflexivity).
    + rewrite (handle_compile_only_target _ pre post target Hs Hn). now eexists.
    + rewrite (handle_convert_obj_to_so_target _ pre post target Hs Hn). now eexists.
    + rewrite (handle_compile_and_link_target _ pre post target Hs Hn). now eexists.
    + rewrite (handle_link_only_target _ pre post target Hs Hn). now eexists.
  - destruct (classify_link_tests _ _ Hc) as [Hso Hl].
    destruct cat; cbn [renderer]; try (eexists; reflexivity).
    + rewrite (handle_compile_only_no_flag _ Ho). now eexists.
    + elim Hf. now apply Hso.
    + elim Ho. apply output_marker_has_flag. apply Hl. now left.
    + elim Ho. apply output_marker_has_flag. apply Hl. now right.
Qed.

Lemma X9_lines_processed_without_exception_witness :
  (~ contains "g++ -c src/demo.cc" "-o" /\ ~ contains "g++ -c src/demo.cc" K_FPIC)
  /\ exists r, process "g++ -c src/demo.cc" = Ok r.
Proof.
  assert (H : ~ contains "g++ -c src/demo.cc" "-o"
              /\ ~ contains "g++ -c src/demo.cc" K_FPIC)
    by (split; apply count_test_false; reflexivity).
  split; [exact H|].
  apply (X9_lines_processed_without_exception "g++ -c src/demo.cc"). right. exact H.
Defined.

Section Names.

Lemma string_snoc (b : string) :
  forall x, exists b' y, String x b = (b' ++ String y "")%string.
Proof.
  induction b as [|z b IH]; intros x.
  - exists "", x. reflexivity.
  - destruct (IH z) as (b' & y & E). exists (String x b'), y.
    cbn [append]. now rewrite <- E.
Qed.

Lemma substring_app_prefix (t u : string) :
  substring 0 (String.length t) (t ++ u) = t.
Proof.
  induction t as [|c t IH]; cbn [String.length append substring].
  - destruct u; reflexivity.
  - now rewrite IH.
Qed.

(** A test for [only_at_end]: [sub] does not occur in [s] without its last
    character. *)
Lemma only_at_end_test (s sub : string) :
  count (substring 0 (String.length s - 1) s) sub = 0 -> only_at_end s sub.
Proof.
  intros H a b E. destruct b as [|x b]; [reflexivity | exfalso].
  destruct (string_snoc b x) as (b' & y & Eb). rewrite Eb in E.
  assert (Es : s = ((a ++ sub ++ b') ++ String y "")%string)
    by (rewrite E, !append_assoc; reflexivity).
  rewrite Es in H at 2. rewrite Es, length_append in H.
  cbn [String.length] in H.
  replace (String.length (a ++ sub ++ b') + 1 - 1)
    with (String.length (a ++ sub ++ b')) in H by lia.
  rewrite substring_app_prefix in H.
  apply (contains_count (a ++ sub ++ b') sub); [|exact H].
  exists a, b'. reflexivity.
Qed.

Lemma compiled_names_no_slash (suffix name : string) (toks : list string) :
  In name (compiled_names suffix toks) -> ~ contains name "/".
Proof.
  unfold compiled_names. intros H. apply in_map_iff in H.
  destruct H as (item & <- & _). intros Hc. apply contains_count in Hc.
  apply Hc. apply basename_no_slash.
Qed.

End Names.

(** X10.  Without an output flag the compile-only renderer lists names
    without directory: no name derived from a source token holds a slash. *)
Theorem X10_compiled_names_have_no_directory (line name : string) :
  In name (compiled_names K_CPP (split line) ++ compiled_names K_ASM (split line)) ->
  ~ contains name "/".
Proof.
  intros H. apply in_app_or in H.
  destruct H as [H | H]; exact (compiled_names_no_slash _ _ _ H).
Qed.

Lemma X10_compiled_names_have_no_directory_witness :
  In "b.o" (compiled_names K_CPP (split "g++ -c src/a.cc lib/x/b.s")
            ++ compiled_names K_ASM (split "g++ -c src/a.cc lib/x/b.s"))
  /\ ~ contains "b.o" "/".
Proof.
  assert (H : In "b.o" (compiled_names K_CPP (split "g++ -c src/a.cc lib/x/b.s")
                        ++ compiled_names K_ASM (split "g++ -c src/a.cc lib/x/b.s")))
    by (vm_compute; right; left; reflexivity).
  split; [exact H|].
  exact (X10_compiled_names_have_no_directory "g++ -c src/a.cc lib/x/b.s" "b.o" H).
Defined.

(** X11.  The marker [".s"] of assembly sources is found inside the suffix
    [".so"]: a line that is no diagnostic, without [" -c"] and [" -fPIC"]
    and with [" -o"], that names a shared library is [CompileAndLink], never
    [LinkOnly]. *)
Theorem X11_shared_library_name_counts_as_source (line : string) :
  is_error_msg line = Ok false ->
  ~ contains line K_COMPILE -> ~ contains line K_FPIC -> contains line K_OUTPUT ->
  contains line K_SHAREDLIB ->
  classify line = Ok CompileAndLink.
Proof.
  intros He Hc Hf Ho Hso.
  assert (Ha : contains line K_ASM)
    by (apply (contains_trans line K_SHAREDLIB K_ASM Hso); exists "", "o"; reflexivity).
  apply count_test_false in Hc, Hf. apply count_test_true in Ho, Ha.
  now rewrite (classify_not_error line He), Hc, Hf, Ho, Ha, orb_true_r.
Qed.

Lemma X11_shared_library_name_counts_as_source_witness :
  is_error_msg "g++ -o demo main.o libdemo.so" = Ok false
  /\ contains "g++ -o demo main.o libdemo.so" K_SHAREDLIB
  /\ classify "g++ -o demo main.o libdemo.so" = Ok CompileAndLink.
Proof.
  assert (H : contains "g++ -o demo main.o libdemo.so" K_SHAREDLIB)
    by (apply count_test_true; reflexivity).
  split; [reflexivity | split; [exact H|]].
  apply (X11_shared_library_name_counts_as_source "g++ -o demo main.o libdemo.so");
    [reflexivity | apply count_test_false; reflexivity
     | apply count_test_false; reflexivity | apply count_test_true; reflexivity
     | exact H].
Defined.

(** X12.  On a line that passes the whitespace and marker tests,
    [is_error_msg] answers [False] exactly when the first token ends with
    ["g++"], or the line ends with ["gcc"], or the first token is ["ld"],
    ["ar"] or ["gold"], or the first token is a compiler name without
    hyphen, one hyphen and digits; otherwise it answers [True]. *)
Theorem X12_not_diagnostic_exactly (line first : string) (toks : list string) :
  starts_with_space line = false ->
  startswith line K_STARS = false ->
  startswith line K_MAKEDONE = false ->
  ~ contains line K_PREPAR ->
  split line = first :: toks ->
  (is_error_msg line = Ok false <->
   endswith first "g++" = true \/ endswith line "gcc" = true
   \/ first = "ld" \/ first = "ar" \/ first = "gold" \/ versioned first)
  /\ (is_error_msg line = Ok false \/ is_error_msg line = Ok true).
Proof.
  destruct line as [|c rest]; [discriminate|]. cbn [starts_with_space].
  intros Hc H1 H2 H3 Hs. split.
  - split.
    + rewrite (is_error_msg_first c rest first toks Hc H1 H2 H3 Hs).
      destruct (endswith first "g++") eqn:E1; [now left|].
      destruct (endswith (String c rest) "gcc") eqn:E2; [right; now left|].
      cbn [orb].
      destruct (String.eqb first "ld") eqn:T1;
        [apply String.eqb_eq in T1; now auto|].
      destruct (String.eqb first "ar") eqn:T2;
        [apply String.eqb_eq in T2; now auto 6|].
      destruct (String.eqb first "gold") eqn:T3;
        [apply String.eqb_eq in T3; now auto 6|].
      cbn [orb].
      destruct (count first "-" =? 1) eqn:En; [|discriminate].
      apply Nat.eqb_eq in En.
      destruct (split_on_one "-" first En) as (e1 & e2 & Hsp & Ef & Hh).
      rewrite Hsp. cbn [list_get nth_error bind].
      destruct ((endswith e1 "g++" || endswith e1 "gcc") && isdigit e2) eqn:Ev;
        [|discriminate].
      intros _. do 5 right. exists e1, e2.
      apply andb_true_iff in Ev. destruct Ev as [Ev1 Ev2].
      apply orb_true_iff in Ev1. repeat split; assumption.
    + intros [H | [H | H]].
      * apply (is_error_msg_recognized c rest first toks Hc H1 H2 H3 Hs). now left.
      * rewrite (is_error_msg_first c rest first toks Hc H1 H2 H3 Hs).
        now rewrite H, orb_true_r.
      * apply (is_error_msg_recognized c rest first toks Hc H1 H2 H3 Hs). now right.
  - destruct (is_error_msg_total (String c rest)) as [[|] Hb];
      [discriminate | now right | now left].
Qed.

Lemma X12_not_diagnostic_exactly_witness :
  split "clang++ -c demo.cc" = "clang++" :: ["-c"; "demo.cc"]
  /\ endswith "clang++" "g++" = true
  /\ is_error_msg "clang++ -c demo.cc" = Ok false.
Proof.
  split; [reflexivity | split; [reflexivity|]].
  apply (X12_not_diagnostic_exactly "clang++ -c demo.cc" "clang++" ["-c"; "demo.cc"]);
    [reflexivity | reflexivity | reflexivity
     | apply count_test_false; reflexivity | reflexivity |].
  left. reflexivity.
Defined.

Section Startup.




End Startup.






(** X16.  On a [CompileOnly] line in which ["-o"] does not occur, and whose
    source tokens hold their suffix [".cc"] or [".s"] at their end only,
    the names listed are the base names of the source tokens with the
    suffix turned into [".o"]: first those of the [".cc"] tokens, then those
    of the [".s"] tokens. *)
Theorem X16_compile_only_names_objects (line : string) :
  classify line = Ok CompileOnly -> ~ contains line "-o" ->
  (forall item, In item (split line) ->
                (endswith item K_CPP = true -> only_at_end item K_CPP)
                /\ (endswith item K_ASM = true -> only_at_end item K_ASM)) ->
  process line =
    Ok (arrow PREFIX_COMPILE
          (join " " (map (object_name K_CPP)
                         (filter (fun item => endswith item K_CPP) (split line))
                     ++ map (object_name K_ASM)
                          (filter (fun item => endswith item K_ASM) (split line)))),
        true).
Proof.
  intros Hc Ho H. rewrite (process_of_category line _ Hc).
  unfold render; cbn [renderer]. rewrite (handle_compile_only_no_flag line Ho).
  rewrite (compiled_names_object_names K_CPP (split line)),
          (compiled_names_object_names K_ASM (split line));
    try discriminate; try reflexivity.
  - intros item Hin. now apply H.
  - intros item Hin. now apply H.
Qed.

Lemma X16_compile_only_names_objects_witness :
  classify "g++ -c src/main.cc boot.s" = Ok CompileOnly
  /\ process "g++ -c src/main.cc boot.s" = Ok (arrow PREFIX_COMPILE "main.o boot.o", true).
Proof.
  split; [reflexivity|].
  refine (eq_trans (X16_compile_only_names_objects "g++ -c src/main.cc boot.s" _ _ _) _).
  - reflexivity.
  - apply count_test_false. reflexivity.
  - intros item Hin. vm_compute in Hin.
    destruct Hin as [<- | [<- | [<- | [<- | []]]]];
      (split; intros _; apply only_at_end_test; vm_compute; reflexivity).
  - vm_compute. reflexivity.
Defined.

Section Indented.



End Indented.


